(** * go-nagios: result finalisation of a Nagios plugin

    A shallow embedding of [nagios.go] (package [nagios]): the
    [PerformanceData] and [ExitState] types, [Validate], [AddPerfData],
    [AddError] and [ReturnCheckResults], together with the part of Go's
    [fmt] package that [ReturnCheckResults] relies on.

    Conventions.
    - A Go [string] is a sequence of bytes: Rocq's [string] (8-bit [ascii]).
    - A Go [int] is modelled as [Z]; no arithmetic is performed on it here.
    - A Go [error] is an interface value, possibly [nil]: [option errorValue].
    - A Go slice is modelled as a [list]; [append] is [++].
    - A method with a pointer receiver takes the [ExitState] and returns the
      updated [ExitState] next to its result. *)

From Stdlib Require Import String Ascii List ZArith Lia Bool DecimalString.
Import ListNotations.

Local Open Scope list_scope.
Local Open Scope string_scope.

(** ** Package [fmt]: [Fprintf] without operands

    [ReturnCheckResults] calls [fmt.Fprintf(&output, es.ServiceOutput)]: the
    summary text is the format and the operand list is empty.  This module
    follows [pp.doPrintf] of [fmt/print.go] specialised to [len(a) = 0]:
    flags, width and precision are parsed (and skipped), an explicit
    argument index can never be in range, and every verb other than [%]
    lacks its operand. *)
Module fmt.

Definition percentBangString : string := "%!".
Definition missingString : string := "(MISSING)".
Definition badIndexString : string := "(BADINDEX)".
Definition noVerbString : string := "%!(NOVERB)".
Definition badWidthString : string := "%!(BADWIDTH)".
Definition badPrecString : string := "%!(BADPREC)".

(** [format[i] == c], false when [i] is out of range (the source guards
    every such test with [i < end]). *)
Definition byteIs (format : string) (i : nat) (c : ascii) : bool :=
  match String.get i format with
  | Some d => Ascii.eqb d c
  | None => false
  end.

(** [format[i:]] *)
Fixpoint sliceFrom (i : nat) (format : string) : string :=
  match i, format with
  | O, _ => format
  | S _, EmptyString => EmptyString
  | S j, String _ rest => sliceFrom j rest
  end.

Definition isDigit (c : ascii) : bool :=
  (48 <=? nat_of_ascii c)%nat && (nat_of_ascii c <=? 57)%nat.

Definition digitValue (c : ascii) : Z := Z.of_nat (nat_of_ascii c) - 48.

(** [tooLarge]: the parsed number left the range [-1e6 .. 1e6]. *)
Definition tooLarge (x : Z) : bool := ((x >? 1000000) || (x <? -1000000))%Z.

(** The loop of [parsenum]; [n] counts the iterations left before
    [newi] reaches [end]. *)
Fixpoint parsenum_loop (s : string) (end_ : nat) (n : nat)
    (newi : nat) (num : Z) (isnum : bool) : Z * bool * nat :=
  match n with
  | O => (num, isnum, newi)
  | S n' =>
      match String.get newi s with
      | Some c =>
          if isDigit c then
            if tooLarge num then (0%Z, false, end_)
            else parsenum_loop s end_ n' (S newi)
                   (num * 10 + digitValue c)%Z true
          else (num, isnum, newi)
      | None => (num, isnum, newi)
      end
  end.

(** [parsenum(s, start, end)] returns [(num, isnum, newi)]. *)
Definition parsenum (s : string) (start end_ : nat) : Z * bool * nat :=
  if (end_ <=? start)%nat then (0%Z, false, end_)
  else parsenum_loop s end_ (end_ - start) start 0%Z false.

(** Position of the first closing bracket of [format] at an index [>= 1], counted
    from [i], as the closing-bracket loop of [parseArgNumber] finds it. *)
Fixpoint closingBracket (format : string) (i : nat) : option nat :=
  match format with
  | EmptyString => None
  | String c rest =>
      if Ascii.eqb c "]" then Some i else closingBracket rest (S i)
  end.

(** [parseArgNumber(format)] returns [(index, wid, ok)]; [format] starts
    at the opening bracket. *)
Definition parseArgNumber (format : string) : Z * nat * bool :=
  if (String.length format <? 3)%nat then (0%Z, 1%nat, false)
  else
    match format with
    | EmptyString => (0%Z, 1%nat, false)
    | String _ rest =>
        match closingBracket rest 1 with
        | Some i =>
            let '(width, ok, newi) := parsenum format 1 i in
            if negb ok || negb (newi =? i)%nat then (0%Z, S i, false)
            else ((width - 1)%Z, S i, true)
        | None => (0%Z, 1%nat, false)
        end
    end.

(** [pp.argNumber] with [numArgs = 0]: the index is never in range, so a
    bracket always clears [goodArgNum].  Returns
    [(newi, found, goodArgNum)]. *)
Definition argNumber (format : string) (i : nat) (goodArgNum : bool)
    : nat * bool * bool :=
  if byteIs format i "[" then
    let '(_, wid, ok) := parseArgNumber (sliceFrom i format) in
    ((i + wid)%nat, ok, false)
  else (i, false, goodArgNum).

(** The [simpleFormat] loop: flags are recorded and skipped; with no
    operand the fast path for lower-case verbs is never taken. *)
Definition isFlag (c : ascii) : bool :=
  Ascii.eqb c "#" || Ascii.eqb c "0" || Ascii.eqb c "+"
  || Ascii.eqb c "-" || Ascii.eqb c " ".

Fixpoint skipFlags (format : string) (i : nat) : nat :=
  match format with
  | EmptyString => i
  | String c rest => if isFlag c then skipFlags rest (S i) else i
  end.

(** [utf8.RuneError] as [writeRune] encodes it. *)
Definition runeError : string :=
  String "239" (String "191" (String "189" EmptyString)).

Definition inRange (lo hi : nat) (c : option ascii) : bool :=
  match c with
  | Some b => (lo <=? nat_of_ascii b)%nat && (nat_of_ascii b <=? hi)%nat
  | None => false
  end.

(** Size of the encoding announced by a leading byte [>= 0x80] and the
    range accepted for its second byte ([first] and [acceptRanges] of
    [unicode/utf8]); [None] for a byte that cannot start an encoding. *)
Definition leadByte (b : nat) : option (nat * nat * nat) :=
  if (b <? 194)%nat then None
  else if (b <=? 223)%nat then Some (2, 128, 191)%nat
  else if (b =? 224)%nat then Some (3, 160, 191)%nat
  else if (b =? 237)%nat then Some (3, 128, 159)%nat
  else if (b <=? 239)%nat then Some (3, 128, 191)%nat
  else if (b =? 240)%nat then Some (4, 144, 191)%nat
  else if (b <=? 243)%nat then Some (4, 128, 191)%nat
  else if (b =? 244)%nat then Some (4, 128, 143)%nat
  else None.

(** The verb at the head of [s]: [utf8.DecodeRuneInString] followed by
    [writeRune].  Returns the bytes written for the verb and the number of
    bytes of [s] it occupies; an invalid encoding is one byte wide and is
    written as [utf8.RuneError]. *)
Definition decodeVerb (s : string) : string * nat :=
  match s with
  | EmptyString => (runeError, 0%nat)
  | String s0 _ =>
      if (nat_of_ascii s0 <? 128)%nat then (String s0 EmptyString, 1%nat)
      else
        match leadByte (nat_of_ascii s0) with
        | None => (runeError, 1%nat)
        | Some (sz, lo, hi) =>
            if (String.length s <? sz)%nat then (runeError, 1%nat)
            else if negb (inRange lo hi (String.get 1 s)) then
              (runeError, 1%nat)
            else if (sz <=? 2)%nat then (String.substring 0 2 s, 2%nat)
            else if negb (inRange 128 191 (String.get 2 s)) then
              (runeError, 1%nat)
            else if (sz <=? 3)%nat then (String.substring 0 3 s, 3%nat)
            else if negb (inRange 128 191 (String.get 3 s)) then
              (runeError, 1%nat)
            else (String.substring 0 4 s, 4%nat)
        end
  end.

(** One pass of the body of [formatLoop] after the [%] has been read:
    [format] is the text that follows the [%].  Returns what is written to
    the buffer and the index in [format] at which the loop resumes. *)
Definition verb (format : string) : string * nat :=
  let end_ := String.length format in
  let i := skipFlags format 0 in
  let '(i, afterIndex, goodArgNum) := argNumber format i true in
  (* width *)
  let '(i, afterIndex, goodArgNum, buf) :=
    if byteIs format i "*" then (S i, false, goodArgNum, badWidthString)
    else
      let '(_, widPresent, newi) := parsenum format i end_ in
      (newi, afterIndex,
       if afterIndex && widPresent then false else goodArgNum,
       EmptyString) in
  (* precision *)
  let '(i, afterIndex, goodArgNum, buf) :=
    if byteIs format i "." then
      let i := S i in
      let goodArgNum := if afterIndex then false else goodArgNum in
      let '(i, afterIndex, goodArgNum) := argNumber format i goodArgNum in
      if byteIs format i "*" then
        (S i, false, goodArgNum, buf ++ badPrecString)
      else
        let '(_, _, newi) := parsenum format i end_ in
        (newi, afterIndex, goodArgNum, buf)
    else (i, afterIndex, goodArgNum, buf) in
  let '(i, afterIndex, goodArgNum) :=
    if afterIndex then (i, afterIndex, goodArgNum)
    else argNumber format i goodArgNum in
  if (end_ <=? i)%nat then (buf ++ noVerbString, i)
  else
    let '(v, size) := decodeVerb (sliceFrom i format) in
    let i := (i + size)%nat in
    if String.eqb v "%" then (buf ++ "%", i)
    else if negb goodArgNum then
      (buf ++ percentBangString ++ v ++ badIndexString, i)
    else (buf ++ percentBangString ++ v ++ missingString, i).

(** [formatLoop].  [skip] is the number of bytes still covered by the
    verb read last: the loop index of the source jumps over them.  Text
    outside verbs is copied byte for byte. *)
Fixpoint doPrintf (skip : nat) (format : string) : string :=
  match format with
  | EmptyString => EmptyString
  | String c rest =>
      match skip with
      | S k => doPrintf k rest
      | O =>
          if Ascii.eqb c "%" then
            let '(buf, i) := verb rest in buf ++ doPrintf i rest
          else String c (doPrintf 0 rest)
      end
  end.

(** What [fmt.Fprintf(w, format)] writes to [w]. *)
Definition Fprintf (format : string) : string := doPrintf 0 format.

End fmt.

(** ** Package [nagios] *)
Module nagios.

(** Nagios plugin/service check states. *)
Definition StateOKExitCode : Z := 0.
Definition StateWARNINGExitCode : Z := 1.
Definition StateCRITICALExitCode : Z := 2.
Definition StateUNKNOWNExitCode : Z := 3.
Definition StateDEPENDENTExitCode : Z := 4.

(** Nagios plugin/service check state labels. *)
Definition StateOKLabel : string := "OK".
Definition StateWARNINGLabel : string := "WARNING".
Definition StateCRITICALLabel : string := "CRITICAL".
Definition StateUNKNOWNLabel : string := "UNKNOWN".
Definition StateDEPENDENTLabel : string := "DEPENDENT".

(** [CheckOutputEOL]: a space followed by a line feed. *)
Definition CheckOutputEOL : string := String " " (String "010" EmptyString).

(** Default header text for the sections of the output. *)
Definition defaultThresholdsLabel : string := "THRESHOLDS".
Definition defaultErrorsLabel : string := "ERRORS".
Definition defaultDetailedInfoLabel : string := "DETAILED INFO".

(** Non-nil error values.  The four sentinels of the package are values
    of their own (in Go they are compared by identity); [clientError] is
    an error made by client code, [wrapError] the result of [fmt.Errorf]
    with one [%w] operand: its message and the error it unwraps to. *)
Inductive errorValue : Type :=
| ErrPanicDetected
| ErrPerformanceDataMissingLabel
| ErrPerformanceDataMissingValue
| ErrNoPerformanceDataProvided
| clientError (msg : string)
| wrapError (msg : string) (err : errorValue).

(** The Go type [error]; [None] is [nil]. *)
Definition error : Type := option errorValue.

(** The [Error()] method. *)
Definition Error (e : errorValue) : string :=
  match e with
  | ErrPanicDetected => "plugin crash/panic detected"
  | ErrPerformanceDataMissingLabel =>
      "provided performance data missing required label"
  | ErrPerformanceDataMissingValue =>
      "provided performance data missing required value"
  | ErrNoPerformanceDataProvided => "no performance data provided"
  | clientError msg => msg
  | wrapError msg _ => msg
  end.

Fixpoint errorValue_eqb (a b : errorValue) : bool :=
  match a, b with
  | ErrPanicDetected, ErrPanicDetected => true
  | ErrPerformanceDataMissingLabel, ErrPerformanceDataMissingLabel => true
  | ErrPerformanceDataMissingValue, ErrPerformanceDataMissingValue => true
  | ErrNoPerformanceDataProvided, ErrNoPerformanceDataProvided => true
  | clientError m, clientError n => String.eqb m n
  | wrapError m e, wrapError n f => String.eqb m n && errorValue_eqb e f
  | _, _ => false
  end.

(** [errors.Is(err, target)]: [target] is [err] or an error [err] wraps. *)
Fixpoint errors_Is (err target : errorValue) : bool :=
  errorValue_eqb err target
  || match err with
     | wrapError _ inner => errors_Is inner target
     | _ => false
     end.

(** A non-nil value of type [any], as [recover()] returns it for the
    payload of a panic.  Only its rendering by the [%s] verb is used:
    a string prints as itself, an error as its [Error()] text;
    [anyOther] stands for a payload of another type and carries the text
    [%s] prints for it. *)
Inductive any : Type :=
| anyString (s : string)
| anyError (e : errorValue)
| anyOther (text : string).

(** [fmt.Sprintf("%s", v)] *)
Definition Sprint_s (v : any) : string :=
  match v with
  | anyString s => s
  | anyError e => Error e
  | anyOther text => text
  end.

(** [PerformanceData]: one performance data point of a plugin. *)
Record PerformanceData : Type := mkPerformanceData {
  Label : string;
  Value : string;
  UnitOfMeasurement : string;
  Warn : string;
  Crit : string;
  Min : string;
  Max : string
}.

(** [func (pd PerformanceData) Validate() error].  The receiver is a
    value: the method reads a copy of the metric and has no other state
    to change, so its result is all there is to it. *)
Definition Validate (pd : PerformanceData) : error :=
  if String.eqb (Label pd) "" then Some ErrPerformanceDataMissingLabel
  else if String.eqb (Value pd) "" then Some ErrPerformanceDataMissingValue
  else None.

(** [ExitCallBackFunc]: [func() string].  The callback is taken to be a
    function of no argument that returns its text and does nothing
    else. *)
Definition ExitCallBackFunc : Type := unit -> string.

(** [ExitState]; a [nil] callback is [None]. *)
Record ExitState : Type := mkExitState {
  LastError : error;
  Errors : list error;
  ExitStatusCode : Z;
  ServiceOutput : string;
  LongServiceOutput : string;
  perfData : list PerformanceData;
  WarningThreshold : string;
  CriticalThreshold : string;
  thresholdsLabel : string;
  errorsLabel : string;
  detailedInfoLabel : string;
  hideThresholdsSection : bool;
  hideErrorsSection : bool;
  BrandingCallback : option ExitCallBackFunc
}.

(** Assignments to single fields of [*es]. *)
Definition set_Errors (es : ExitState) (v : list error) : ExitState :=
  mkExitState (LastError es) v (ExitStatusCode es) (ServiceOutput es)
    (LongServiceOutput es) (perfData es) (WarningThreshold es)
    (CriticalThreshold es) (thresholdsLabel es) (errorsLabel es)
    (detailedInfoLabel es) (hideThresholdsSection es) (hideErrorsSection es)
    (BrandingCallback es).

Definition set_ExitStatusCode (es : ExitState) (v : Z) : ExitState :=
  mkExitState (LastError es) (Errors es) v (ServiceOutput es)
    (LongServiceOutput es) (perfData es) (WarningThreshold es)
    (CriticalThreshold es) (thresholdsLabel es) (errorsLabel es)
    (detailedInfoLabel es) (hideThresholdsSection es) (hideErrorsSection es)
    (BrandingCallback es).

Definition set_ServiceOutput (es : ExitState) (v : string) : ExitState :=
  mkExitState (LastError es) (Errors es) (ExitStatusCode es) v
    (LongServiceOutput es) (perfData es) (WarningThreshold es)
    (CriticalThreshold es) (thresholdsLabel es) (errorsLabel es)
    (detailedInfoLabel es) (hideThresholdsSection es) (hideErrorsSection es)
    (BrandingCallback es).

Definition set_LongServiceOutput (es : ExitState) (v : string) : ExitState :=
  mkExitState (LastError es) (Errors es) (ExitStatusCode es)
    (ServiceOutput es) v (perfData es) (WarningThreshold es)
    (CriticalThreshold es) (thresholdsLabel es) (errorsLabel es)
    (detailedInfoLabel es) (hideThresholdsSection es) (hideErrorsSection es)
    (BrandingCallback es).

Definition set_perfData (es : ExitState) (v : list PerformanceData)
    : ExitState :=
  mkExitState (LastError es) (Errors es) (ExitStatusCode es)
    (ServiceOutput es) (LongServiceOutput es) v (WarningThreshold es)
    (CriticalThreshold es) (thresholdsLabel es) (errorsLabel es)
    (detailedInfoLabel es) (hideThresholdsSection es) (hideErrorsSection es)
    (BrandingCallback es).

(** The validation loop of [AddPerfData]:
    [for i := range pd { if err := pd[i].Validate(); err != nil { return err } }];
    [None] when the loop runs to its end. *)
Fixpoint validateEach (pd : list PerformanceData) : error :=
  match pd with
  | [] => None
  | m :: rest =>
      match Validate m with
      | Some err => Some err
      | None => validateEach rest
      end
  end.

(** [func (es *ExitState) AddPerfData(skipValidate bool, pd ...PerformanceData) error] *)
Definition AddPerfData (es : ExitState) (skipValidate : bool)
    (pd : list PerformanceData) : ExitState * error :=
  if (List.length pd =? 0)%nat then (es, Some ErrNoPerformanceDataProvided)
  else
    match (if negb skipValidate then validateEach pd else None) with
    | Some err => (es, Some err)
    | None => (set_perfData es (perfData es ++ pd)%list, None)
    end.

(** [func (es *ExitState) AddError(err ...error)] *)
Definition AddError (es : ExitState) (err : list error) : ExitState :=
  set_Errors es (Errors es ++ err)%list.

(** What [ReturnCheckResults] leaves behind: the receiver as it stands when
    the process exits, the writes made to standard output in order, and
    the status handed to [os.Exit]. *)
Record Termination : Type := mkTermination {
  finalState : ExitState;
  stdout : list string;
  exitCode : Z
}.

Section ReturnCheckResults.

(** The four section renderers are methods of [ExitState] defined outside
    [nagios.go].  Each is taken as the text it writes to the
    [strings.Builder] for a given receiver: it appends to the builder and
    leaves the receiver as it is. *)
Variable handleErrorsSection : ExitState -> string.
Variable handleThresholdsSection : ExitState -> string.
Variable handleLongServiceOutput : ExitState -> string.
Variable handlePerformanceData : ExitState -> string.

(** The block guarded by [if err := recover(); err != nil].  [recovered]
    is the result of [recover()] ([None] for [nil]) and [stackTrace] the
    result of [debug.Stack()]. *)
Definition overrideOnPanic (es : ExitState) (recovered : option any)
    (stackTrace : string) : ExitState :=
  match recovered with
  | None => es
  | Some err =>
      (* fmt.Errorf("%w: %s", ErrPanicDetected, err) *)
      let es := AddError es
        [Some (wrapError (Error ErrPanicDetected ++ ": " ++ Sprint_s err)
                 ErrPanicDetected)] in
      let es := set_ServiceOutput es
        (StateCRITICALLabel ++
         ": plugin crash detected. See details via web UI or run plugin manually via CLI.") in
      let es := set_LongServiceOutput es
        ("```" ++ CheckOutputEOL ++ Sprint_s err ++ CheckOutputEOL
         ++ CheckOutputEOL ++ stackTrace ++ CheckOutputEOL ++ "```") in
      set_ExitStatusCode es StateCRITICALExitCode
  end.

(** [func (es *ExitState) ReturnCheckResults()].  [output] is the
    [strings.Builder]; every write appends to it. *)
Definition ReturnCheckResults (es : ExitState) (recovered : option any)
    (stackTrace : string) : Termination :=
  let es := overrideOnPanic es recovered stackTrace in
  let output := EmptyString in
  let output := output ++ fmt.Fprintf (ServiceOutput es) in
  let output := output ++ handleErrorsSection es in
  let output := output ++ handleThresholdsSection es in
  let output := output ++ handleLongServiceOutput es in
  let output :=
    match BrandingCallback es with
    | Some callback =>
        output ++ (CheckOutputEOL ++ callback tt ++ CheckOutputEOL)
    | None => output
    end in
  let output := output ++ handlePerformanceData es in
  mkTermination es [output] (ExitStatusCode es).

End ReturnCheckResults.

End nagios.

(** ** The section renderers, from the specification

    [handleErrorsSection], [handleThresholdsSection],
    [handleLongServiceOutput] and [handlePerformanceData] are called by
    [ReturnCheckResults] and defined in another file of the package.  The
    results below hold for every choice of the four; this module gives one
    choice, used to run [ReturnCheckResults] on concrete states. *)
Module spec.
Import nagios.

Definition blankLine : string := CheckOutputEOL ++ CheckOutputEOL.

Definition orDefault (custom default : string) : string :=
  if String.eqb custom "" then default else custom.

Definition decimal (n : nat) : string :=
  NilEmpty.string_of_uint (Nat.to_uint n).

(** [%v] of an error; [nil] prints as [<nil>]. *)
Definition errorText (e : error) : string :=
  match e with
  | Some v => Error v
  | None => "<nil>"
  end.

Fixpoint numberedErrors (n : nat) (errs : list error) : string :=
  match errs with
  | [] => EmptyString
  | e :: rest =>
      decimal n ++ ": " ++ errorText e ++ CheckOutputEOL
      ++ numberedErrors (S n) rest
  end.

(** Modelled from the spec: [handleErrorsSection], missing from the
    sources at hand (section 4.3, step 3).  Rendered only if the section
    is not hidden and the error sequence is non-empty: a blank line, the
    header (the custom label if set, else the default), then each error
    on its own line, numbered from 1 in append order and terminated by
    the end-of-line token. *)
Definition handleErrorsSection (es : ExitState) : string :=
  if negb (hideErrorsSection es)
     && negb (List.length (Errors es) =? 0)%nat
  then
    blankLine ++ orDefault (errorsLabel es) defaultErrorsLabel
    ++ CheckOutputEOL ++ numberedErrors 1 (Errors es)
  else EmptyString.

Definition thresholdLine (label value : string) : string :=
  if String.eqb value "" then EmptyString
  else label ++ ": " ++ value ++ CheckOutputEOL.

(** Modelled from the spec: [handleThresholdsSection], missing from the
    sources at hand (section 4.3, step 4).  Rendered only if the section
    is not hidden and one of the two thresholds is non-empty: a blank
    line, the header, then a labelled line for each non-empty
    threshold. *)
Definition handleThresholdsSection (es : ExitState) : string :=
  if negb (hideThresholdsSection es)
     && negb (String.eqb (WarningThreshold es) ""
              && String.eqb (CriticalThreshold es) "")
  then
    blankLine ++ orDefault (thresholdsLabel es) defaultThresholdsLabel
    ++ CheckOutputEOL
    ++ thresholdLine StateWARNINGLabel (WarningThreshold es)
    ++ thresholdLine StateCRITICALLabel (CriticalThreshold es)
  else EmptyString.

(** Modelled from the spec: [handleLongServiceOutput], missing from the
    sources at hand (section 4.3, step 5).  Rendered only if the long
    output is non-empty: a blank line, the header, then the long text
    as it is. *)
Definition handleLongServiceOutput (es : ExitState) : string :=
  if String.eqb (LongServiceOutput es) "" then EmptyString
  else
    blankLine ++ orDefault (detailedInfoLabel es) defaultDetailedInfoLabel
    ++ CheckOutputEOL ++ LongServiceOutput es.

(** [label=value[UOM];warn;crit;min;max] *)
Definition metricLine (pd : PerformanceData) : string :=
  Label pd ++ "=" ++ Value pd ++ UnitOfMeasurement pd ++ ";" ++ Warn pd
  ++ ";" ++ Crit pd ++ ";" ++ Min pd ++ ";" ++ Max pd.

Fixpoint metricLines (pds : list PerformanceData) : string :=
  match pds with
  | [] => EmptyString
  | pd :: rest => metricLine pd ++ CheckOutputEOL ++ metricLines rest
  end.

(** Modelled from the spec: [handlePerformanceData], missing from the
    sources at hand (section 4.3, step 7).  Rendered only if the metric
    sequence is non-empty: a blank line, a fixed header, then one line
    per metric in append order.  The text of the header is not given and
    is a parameter here. *)
Definition handlePerformanceData (header : string) (es : ExitState)
    : string :=
  if (List.length (perfData es) =? 0)%nat then EmptyString
  else blankLine ++ header ++ CheckOutputEOL ++ metricLines (perfData es).

(** [ReturnCheckResults] with these renderers. *)
Definition ReturnCheckResultsWith (header : string) (es : ExitState)
    (recovered : option any) (stackTrace : string) : Termination :=
  nagios.ReturnCheckResults handleErrorsSection handleThresholdsSection
    handleLongServiceOutput (handlePerformanceData header)
    es recovered stackTrace.

End spec.

(** ** Sample states *)
Module samples.
Import nagios.

(** [var nagiosExitState = nagios.ExitState{LastError: nil, ExitStatusCode: nagios.StateOKExitCode}] *)
Definition zeroState : ExitState :=
  mkExitState None [] StateOKExitCode "" "" [] "" "" "" "" "" false false
    None.

Definition metric (label value : string) : PerformanceData :=
  mkPerformanceData label value "" "" "" "" "".

Definition timeMetric : PerformanceData := metric "time" "12ms".

(** The batch of the package's performance-data example. *)
Definition exampleBatch : list PerformanceData :=
  [metric "time" "12ms"; metric "datacenters" "2";
   metric "triggered_alarms" "14"].

Definition diskState : ExitState :=
  set_ServiceOutput zeroState "OK: 93% of disk space free".

Definition brandedState : ExitState :=
  mkExitState None [Some (clientError "disk full"); Some (clientError "timeout")]
    StateWARNINGExitCode "WARNING: two problems" "details" [timeMetric]
    "80" "90" "" "FAILURES" "" false false
    (Some (fun _ => "MyPlugin v1.0")).

End samples.

(** ** The package's example: emitting performance data

    [Example_emitPerformanceData] of the package's example file: a plugin
    that defers [ReturnCheckResults], records three metrics and then fills
    in its summary and report. *)
Module example.
Import nagios.

(** How a call of a function returning a string ends: with its result or
    with a panic and its payload. *)
Inductive outcome : Type :=
| returns (s : string)
| panics (v : any).

(** [fmt.Sprintf("%d", n)] *)
Definition Sprint_d (n : Z) : string := NilZero.string_of_int (Z.to_int n).

Section Example_emitPerformanceData.

Variable handleErrorsSection : ExitState -> string.
Variable handleThresholdsSection : ExitState -> string.
Variable handleLongServiceOutput : ExitState -> string.
Variable handlePerformanceData : ExitState -> string.

(** [OnelineCheckSummary] and [DetailedPluginReport] belong to another
    file of the example package: each is taken as the way its call
    ends. *)
Variable OnelineCheckSummary : outcome.
Variable DetailedPluginReport : outcome.

(** The deferred [nagiosExitState.ReturnCheckResults()], run when the
    function returns ([None]) or panics (the payload). *)
Definition deferred (es : ExitState) (recovered : option any)
    (stackTrace : string) : Termination :=
  ReturnCheckResults handleErrorsSection handleThresholdsSection
    handleLongServiceOutput handlePerformanceData es recovered stackTrace.

(** [elapsed] is [time.Since(pluginStart).Milliseconds()] and
    [stackTrace] what [debug.Stack()] returns if it is called.  The
    message [log.Printf] writes in the error branch goes to standard
    error and is not part of the result. *)
Definition Example_emitPerformanceData (elapsed : Z) (stackTrace : string)
    : Termination :=
  let nagiosExitState :=
    mkExitState None [] StateOKExitCode "" "" [] "" "" "" "" "" false false
      None in
  let pd :=
    [ mkPerformanceData "time" (Sprint_d elapsed ++ "ms") "" "" "" "" "";
      mkPerformanceData "datacenters" (Sprint_d 2) "" "" "" "" "";
      mkPerformanceData "triggered_alarms" (Sprint_d 14) "" "" "" "" "" ] in
  match AddPerfData nagiosExitState false pd with
  | (nagiosExitState, Some err) =>
      let nagiosExitState :=
        set_Errors nagiosExitState
          (Errors nagiosExitState ++ [Some err])%list in
      deferred nagiosExitState None stackTrace
  | (nagiosExitState, None) =>
      match OnelineCheckSummary with
      | panics v => deferred nagiosExitState (Some v) stackTrace
      | returns summary =>
          let nagiosExitState := set_ServiceOutput nagiosExitState summary in
          match DetailedPluginReport with
          | panics v => deferred nagiosExitState (Some v) stackTrace
          | returns report =>
              let nagiosExitState :=
                set_LongServiceOutput nagiosExitState report in
              deferred nagiosExitState None stackTrace
          end
      end
  end.

End Example_emitPerformanceData.

End example.

(** Every [%] of the text written twice. *)
Fixpoint escapePercent (s : string) : string :=
  match s with
  | EmptyString => EmptyString
  | String c rest =>
      if Ascii.eqb c "%" then String "%" (String "%" (escapePercent rest))
      else String c (escapePercent rest)
  end.

(** No byte of the string is [%]. *)
Fixpoint percentFree (s : string) : bool :=
  match s with
  | EmptyString => true
  | String c rest => negb (Ascii.eqb c "%") && percentFree rest
  end.

(** * Properties *)

Import nagios.

(** ** Strings *)

Lemma append_nil_l (s : string) : "" ++ s = s.
Proof. reflexivity. Qed.

Lemma append_nil_r (s : string) : s ++ "" = s.
Proof.
  induction s as [|c s IH]; simpl; [reflexivity | now rewrite IH].
Qed.

Lemma append_assoc (s t u : string) : (s ++ t) ++ u = s ++ (t ++ u).
Proof.
  induction s as [|c s IH]; simpl; [reflexivity | now rewrite IH].
Qed.

(** A format without [%] is written as it is. *)
Lemma Fprintf_percentFree (s : string) :
  percentFree s = true -> fmt.Fprintf s = s.
Proof.
  unfold fmt.Fprintf.
  induction s as [|c s IH]; simpl; intros H; [reflexivity|].
  apply andb_prop in H as [Hc Hs].
  destruct (Ascii.eqb c "%"); [discriminate|].
  now rewrite IH.
Qed.

(** ** [Validate] and [AddPerfData] *)

(** C5: [Validate] reports the missing label if [Label] is empty,
    otherwise the missing value if [Value] is empty, and otherwise
    succeeds.  It is a function of the metric alone and returns nothing
    but the error, so there is no state for it to change. *)
Theorem Validate_cases (pd : PerformanceData) :
  (Label pd = "" -> Validate pd = Some ErrPerformanceDataMissingLabel)
  /\ (Label pd <> "" -> Value pd = "" ->
      Validate pd = Some ErrPerformanceDataMissingValue)
  /\ (Label pd <> "" -> Value pd <> "" -> Validate pd = None).
Proof.
  unfold Validate.
  destruct (String.eqb_spec (Label pd) "") as [HL|HL];
    destruct (String.eqb_spec (Value pd) "") as [HV|HV];
    repeat split; intros; congruence.
Qed.

Lemma Validate_cases_witness :
  Validate (samples.metric "" "12ms") = Some ErrPerformanceDataMissingLabel
  /\ Validate (samples.metric "time" "") = Some ErrPerformanceDataMissingValue
  /\ Validate (samples.metric "time" "12ms") = None.
Proof.
  split; [|split].
  - apply (proj1 (Validate_cases (samples.metric "" "12ms"))).
    reflexivity.
  - apply (proj1 (proj2 (Validate_cases (samples.metric "time" "")))).
    + discriminate.
    + reflexivity.
  - apply (proj2 (proj2 (Validate_cases (samples.metric "time" "12ms"))));
      discriminate.
Defined.

(** The validation loop stops at the first metric that fails. *)
Lemma validateEach_first (pd : list PerformanceData) :
  (exists m, In m pd /\ Validate m <> None) ->
  exists l1 m l2 e,
    pd = (l1 ++ m :: l2)%list
    /\ Forall (fun x => Validate x = None) l1
    /\ Validate m = Some e
    /\ validateEach pd = Some e.
Proof.
  induction pd as [|a pd IH]; intros [m [Hin Hm]]; [destruct Hin|].
  simpl. destruct (Validate a) as [e|] eqn:Ha.
  - exists [], a, pd, e. repeat split; auto.
  - destruct Hin as [->|Hin]; [congruence|].
    destruct IH as (l1 & m' & l2 & e & -> & Hall & Hm' & Hv);
      [now exists m|].
    exists (a :: l1), m', l2, e. repeat split; auto.
Qed.

Lemma validateEach_all_valid (pd : list PerformanceData) :
  (forall m, In m pd -> Validate m = None) -> validateEach pd = None.
Proof.
  induction pd as [|a pd IH]; intros H; simpl; [reflexivity|].
  rewrite (H a (or_introl eq_refl)). apply IH.
  intros m Hm. apply H. now right.
Qed.

(** C2: with validation on, a batch that holds a metric failing
    validation is rejected with the error of the first such metric in
    batch order, and the state (the metric sequence with it) is what it
    was: nothing of the batch is appended. *)
Theorem AddPerfData_invalid_batch (es : ExitState)
    (pd : list PerformanceData) :
  (exists m, In m pd /\ Validate m <> None) ->
  exists l1 m l2 e,
    pd = (l1 ++ m :: l2)%list
    /\ Forall (fun x => Validate x = None) l1
    /\ Validate m = Some e
    /\ AddPerfData es false pd = (es, Some e)
    /\ perfData (fst (AddPerfData es false pd)) = perfData es.
Proof.
  intros H.
  destruct (validateEach_first pd H) as (l1 & m & l2 & e & Hpd & Hall & Hm & Hv).
  exists l1, m, l2, e.
  assert (Hadd : AddPerfData es false pd = (es, Some e)).
  { unfold AddPerfData. simpl negb. cbv iota. rewrite Hv.
    destruct pd; [destruct l1; discriminate | reflexivity]. }
  repeat split; auto. now rewrite Hadd.
Qed.

Lemma AddPerfData_invalid_batch_witness :
  exists l1 m l2 e,
    [samples.timeMetric; samples.metric "" "2"; samples.metric "load" ""]
      = (l1 ++ m :: l2)%list
    /\ Forall (fun x => Validate x = None) l1
    /\ Validate m = Some e
    /\ AddPerfData samples.brandedState false
         [samples.timeMetric; samples.metric "" "2"; samples.metric "load" ""]
       = (samples.brandedState, Some e)
    /\ perfData (fst (AddPerfData samples.brandedState false
         [samples.timeMetric; samples.metric "" "2"; samples.metric "load" ""]))
       = perfData samples.brandedState.
Proof.
  apply (AddPerfData_invalid_batch samples.brandedState
           [samples.timeMetric; samples.metric "" "2"; samples.metric "load" ""]).
  exists (samples.metric "" "2"). split.
  - simpl. right. left. reflexivity.
  - discriminate.
Defined.

(** C3: an empty batch is rejected with [ErrNoPerformanceDataProvided]
    whatever [skipValidate] is, and the whole state is left as it was. *)
Theorem AddPerfData_empty_batch (es : ExitState) (skipValidate : bool) :
  AddPerfData es skipValidate [] = (es, Some ErrNoPerformanceDataProvided).
Proof. reflexivity. Qed.

(** C4: a non-empty batch whose metrics all pass validation, or any
    non-empty batch when validation is skipped, is accepted: no error is
    returned and the metric sequence is its former contents followed by
    the batch in its order. *)
Theorem AddPerfData_appends (es : ExitState) (skipValidate : bool)
    (pd : list PerformanceData) :
  pd <> [] ->
  skipValidate = true \/ (forall m, In m pd -> Validate m = None) ->
  snd (AddPerfData es skipValidate pd) = None
  /\ perfData (fst (AddPerfData es skipValidate pd))
     = (perfData es ++ pd)%list.
Proof.
  intros Hne Hok. unfold AddPerfData.
  destruct pd as [|a pd]; [congruence|]. simpl List.length. simpl Nat.eqb.
  cbv iota.
  assert (Hv : (if negb skipValidate then validateEach (a :: pd) else None)
               = None).
  { destruct Hok as [->|Hall]; [reflexivity|].
    destruct skipValidate; [reflexivity|].
    simpl negb. cbv iota. now apply validateEach_all_valid. }
  rewrite Hv. split; reflexivity.
Qed.

Lemma AddPerfData_appends_witness :
  snd (AddPerfData samples.brandedState false samples.exampleBatch) = None
  /\ perfData (fst (AddPerfData samples.brandedState false samples.exampleBatch))
     = (perfData samples.brandedState ++ samples.exampleBatch)%list.
Proof.
  apply (AddPerfData_appends samples.brandedState false samples.exampleBatch).
  - discriminate.
  - right. intros m Hm. simpl in Hm.
    destruct Hm as [<-|[<-|[<-|[]]]]; reflexivity.
Defined.

(** C10: whatever the batch and [skipValidate], and whether the call
    succeeds or fails, [AddPerfData] leaves every field other than the
    metric sequence as it was. *)
Theorem AddPerfData_frame (es : ExitState) (skipValidate : bool)
    (pd : list PerformanceData) :
  let es' := fst (AddPerfData es skipValidate pd) in
  LastError es' = LastError es
  /\ Errors es' = Errors es
  /\ ExitStatusCode es' = ExitStatusCode es
  /\ ServiceOutput es' = ServiceOutput es
  /\ LongServiceOutput es' = LongServiceOutput es
  /\ WarningThreshold es' = WarningThreshold es
  /\ CriticalThreshold es' = CriticalThreshold es
  /\ thresholdsLabel es' = thresholdsLabel es
  /\ errorsLabel es' = errorsLabel es
  /\ detailedInfoLabel es' = detailedInfoLabel es
  /\ hideThresholdsSection es' = hideThresholdsSection es
  /\ hideErrorsSection es' = hideErrorsSection es
  /\ BrandingCallback es' = BrandingCallback es.
Proof.
  unfold AddPerfData.
  destruct (List.length pd =? 0)%nat; [simpl; repeat split|].
  destruct (if negb skipValidate then validateEach pd else None);
    simpl; repeat split.
Qed.

(** ** [AddError] *)

(** C9: [AddError] called with no error returns (it has no error result
    and no failing path) and leaves the error sequence, and the rest of
    the state with it, as it was; [AddPerfData] called with no metric
    returns an error. *)
Theorem AddError_no_arguments (es : ExitState) :
  AddError es [] = es
  /\ Errors (AddError es []) = Errors es
  /\ forall skipValidate, snd (AddPerfData es skipValidate []) <> None.
Proof.
  unfold AddError, set_Errors. rewrite app_nil_r.
  destruct es; repeat split; discriminate.
Qed.

(** ** [ReturnCheckResults] *)

Section Finalizer.

(** The section renderers: any four functions of the receiver. *)
Variable handleErrorsSection : ExitState -> string.
Variable handleThresholdsSection : ExitState -> string.
Variable handleLongServiceOutput : ExitState -> string.
Variable handlePerformanceData : ExitState -> string.

Local Abbreviation Return :=
  (ReturnCheckResults handleErrorsSection handleThresholdsSection
     handleLongServiceOutput handlePerformanceData).

(** The text written, with the sections grouped from the right. *)
Lemma ReturnCheckResults_stdout (es : ExitState) (recovered : option any)
    (stackTrace : string) :
  let es' := overrideOnPanic es recovered stackTrace in
  stdout (Return es recovered stackTrace) =
  [fmt.Fprintf (ServiceOutput es')
   ++ handleErrorsSection es'
   ++ handleThresholdsSection es'
   ++ handleLongServiceOutput es'
   ++ match BrandingCallback es' with
      | Some callback => CheckOutputEOL ++ callback tt ++ CheckOutputEOL
      | None => ""
      end
   ++ handlePerformanceData es'].
Proof.
  unfold ReturnCheckResults. cbv zeta. cbn [stdout].
  destruct (BrandingCallback (overrideOnPanic es recovered stackTrace));
    now rewrite ?append_assoc, ?append_nil_l.
Qed.

Lemma overrideOnPanic_BrandingCallback (es : ExitState)
    (recovered : option any) (stackTrace : string) :
  BrandingCallback (overrideOnPanic es recovered stackTrace)
  = BrandingCallback es.
Proof. destruct recovered; reflexivity. Qed.

(** C1: when [recover()] yields the payload of a panic, the state is
    overridden before anything is rendered: the error sequence gains one
    error that wraps [ErrPanicDetected] and carries the payload's text,
    [ServiceOutput] becomes the fixed CRITICAL summary, [LongServiceOutput]
    becomes the fenced block holding the payload's text and the (non-empty)
    stack trace between end-of-line tokens, and [ExitStatusCode] becomes 2,
    whatever these fields held.  The text written starts with the fixed
    summary and is rendered from the overridden state. *)
Theorem panic_overrides_exit_state (es : ExitState) (err : any)
    (stackTrace : string) :
  stackTrace <> "" ->
  let r := Return es (Some err) stackTrace in
  let es' := finalState r in
  let synthetic :=
    wrapError ("plugin crash/panic detected: " ++ Sprint_s err)
      ErrPanicDetected in
  let summary :=
    "CRITICAL: plugin crash detected. See details via web UI or run plugin manually via CLI." in
  Errors es' = (Errors es ++ [Some synthetic])%list
  /\ errors_Is synthetic ErrPanicDetected = true
  /\ ServiceOutput es' = summary
  /\ (exists trace, trace <> ""
      /\ LongServiceOutput es' =
         "```" ++ CheckOutputEOL ++ Sprint_s err ++ CheckOutputEOL
         ++ CheckOutputEOL ++ trace ++ CheckOutputEOL ++ "```")
  /\ ExitStatusCode es' = 2%Z
  /\ exitCode r = 2%Z
  /\ stdout r =
     [summary
      ++ handleErrorsSection es'
      ++ handleThresholdsSection es'
      ++ handleLongServiceOutput es'
      ++ match BrandingCallback es with
         | Some callback => CheckOutputEOL ++ callback tt ++ CheckOutputEOL
         | None => ""
         end
      ++ handlePerformanceData es'].
Proof.
  intros Hst r es' synthetic summary.
  repeat split; try reflexivity.
  - exists stackTrace. split; [assumption | reflexivity].
  - subst r. rewrite ReturnCheckResults_stdout. cbv zeta.
    rewrite overrideOnPanic_BrandingCallback. reflexivity.
Qed.

(** C7: with a branding callback set, the text written has the
    end-of-line token, the callback's text and the token again right
    after the long-output section and right before the performance-data
    section; with no callback the performance-data section follows the
    long-output section at once. *)
Theorem branding_between_long_output_and_perfdata (es : ExitState)
    (recovered : option any) (stackTrace : string) :
  let r := Return es recovered stackTrace in
  let es' := finalState r in
  let before :=
    fmt.Fprintf (ServiceOutput es') ++ handleErrorsSection es'
    ++ handleThresholdsSection es' in
  match BrandingCallback es with
  | Some callback =>
      stdout r =
      [before ++ handleLongServiceOutput es'
       ++ (CheckOutputEOL ++ callback tt ++ CheckOutputEOL)
       ++ handlePerformanceData es']
  | None =>
      stdout r =
      [before ++ handleLongServiceOutput es' ++ handlePerformanceData es']
  end.
Proof.
  intros r es' before. subst r before.
  rewrite ReturnCheckResults_stdout. cbv zeta.
  change (finalState (Return es recovered stackTrace))
    with (overrideOnPanic es recovered stackTrace) in es'.
  subst es'. rewrite overrideOnPanic_BrandingCallback.
  destruct (BrandingCallback es); now rewrite !append_assoc.
Qed.

(** C8: the text is the summary, the errors section, the thresholds
    section, the long-output section, the branding and the
    performance-data section in this order, all rendered from the state
    as the panic check left it; it reaches standard output in one write;
    and the exit status is that state's [ExitStatusCode] as it is: the
    caller's value when nothing was recovered, whatever integer it is. *)
Theorem sections_in_order_one_write_exit_status (es : ExitState)
    (recovered : option any) (stackTrace : string) :
  let r := Return es recovered stackTrace in
  let es' := finalState r in
  es' = overrideOnPanic es recovered stackTrace
  /\ stdout r =
     [fmt.Fprintf (ServiceOutput es')
      ++ handleErrorsSection es'
      ++ handleThresholdsSection es'
      ++ handleLongServiceOutput es'
      ++ match BrandingCallback es' with
         | Some callback => CheckOutputEOL ++ callback tt ++ CheckOutputEOL
         | None => ""
         end
      ++ handlePerformanceData es']
  /\ List.length (stdout r) = 1%nat
  /\ exitCode r = ExitStatusCode es'
  /\ exitCode (Return es None stackTrace) = ExitStatusCode es
  /\ forall code : Z,
       exitCode (Return (set_ExitStatusCode es code) None stackTrace) = code.
Proof.
  intros r es'. subst r es'.
  split; [reflexivity|].
  split; [apply ReturnCheckResults_stdout|].
  repeat split.
Qed.

(** C6 (as the code behaves): the summary is handed to [fmt.Fprintf] as
    its format, so a [%] in it is read as the start of a verb.  For the
    summary [OK: 93% of disk space free] the text written begins
    [OK: 93%!o(MISSING)f disk space free], which is not the summary. *)
Theorem summary_percent_read_as_verb :
  ServiceOutput samples.diskState = "OK: 93% of disk space free"
  /\ stdout (Return samples.diskState None "") =
     ["OK: 93%!o(MISSING)f disk space free"
      ++ handleErrorsSection samples.diskState
      ++ handleThresholdsSection samples.diskState
      ++ handleLongServiceOutput samples.diskState
      ++ handlePerformanceData samples.diskState]
  /\ fmt.Fprintf (ServiceOutput samples.diskState)
     <> ServiceOutput samples.diskState.
Proof.
  split; [reflexivity|]. split.
  - rewrite ReturnCheckResults_stdout. reflexivity.
  - discriminate.
Qed.

(** X8: a summary without [%] is written as it is, with nothing added
    between it and the first section. *)
Lemma summary_verbatim_without_percent (es : ExitState)
    (stackTrace : string) :
  percentFree (ServiceOutput es) = true ->
  stdout (Return es None stackTrace) =
  [ServiceOutput es
   ++ handleErrorsSection es
   ++ handleThresholdsSection es
   ++ handleLongServiceOutput es
   ++ match BrandingCallback es with
      | Some callback => CheckOutputEOL ++ callback tt ++ CheckOutputEOL
      | None => ""
      end
   ++ handlePerformanceData es].
Proof.
  intros H. rewrite ReturnCheckResults_stdout. cbv zeta. simpl overrideOnPanic.
  now rewrite (Fprintf_percentFree _ H).
Qed.

End Finalizer.

(** A crash of the plugin with the payload [boom], run with the
    renderers of the specification. *)
Lemma panic_overrides_exit_state_witness :
  "goroutine 1 [running]:" <> ""
  /\ ExitStatusCode
       (finalState
          (spec.ReturnCheckResultsWith "PERFDATA" samples.brandedState
             (Some (anyString "boom")) "goroutine 1 [running]:")) = 2%Z
  /\ exitCode
       (spec.ReturnCheckResultsWith "PERFDATA" samples.brandedState
          (Some (anyString "boom")) "goroutine 1 [running]:") = 2%Z
  /\ ServiceOutput
       (finalState
          (spec.ReturnCheckResultsWith "PERFDATA" samples.brandedState
             (Some (anyString "boom")) "goroutine 1 [running]:")) =
     "CRITICAL: plugin crash detected. See details via web UI or run plugin manually via CLI.".
Proof.
  assert (H : "goroutine 1 [running]:" <> "") by discriminate.
  pose proof (panic_overrides_exit_state
                spec.handleErrorsSection spec.handleThresholdsSection
                spec.handleLongServiceOutput
                (spec.handlePerformanceData "PERFDATA")
                samples.brandedState (anyString "boom")
                "goroutine 1 [running]:" H) as P.
  cbv zeta in P.
  destruct P as (_ & _ & Hso & _ & Hcode & Hexit & _).
  unfold spec.ReturnCheckResultsWith.
  split; [exact H|]. split; [exact Hcode|]. split; [exact Hexit | exact Hso].
Defined.

(** * Further properties *)

(** ** [AddPerfData]: results, invariant, composition *)

Lemma validateEach_None (pd : list PerformanceData) :
  validateEach pd = None -> Forall (fun m => Validate m = None) pd.
Proof.
  induction pd as [|a pd IH]; simpl; intros H; [constructor|].
  destruct (Validate a) eqn:Ha; [discriminate|].
  constructor; auto.
Qed.

Lemma validateEach_Some (pd : list PerformanceData) (e : errorValue) :
  validateEach pd = Some e -> exists m, In m pd /\ Validate m = Some e.
Proof.
  induction pd as [|a pd IH]; simpl; intros H; [discriminate|].
  destruct (Validate a) as [e'|] eqn:Ha.
  - injection H as ->. exists a. auto.
  - destruct (IH H) as (m & Hin & Hm). exists m. auto.
Qed.

Lemma validateEach_app (a b : list PerformanceData) :
  validateEach a = None -> validateEach (a ++ b)%list = validateEach b.
Proof.
  induction a as [|x a IH]; simpl; intros H; [reflexivity|].
  destruct (Validate x); [discriminate | auto].
Qed.

Lemma Validate_sentinel (m : PerformanceData) (e : errorValue) :
  Validate m = Some e ->
  e = ErrPerformanceDataMissingLabel \/ e = ErrPerformanceDataMissingValue.
Proof.
  unfold Validate.
  destruct (String.eqb (Label m) ""); [intros [= <-]; auto|].
  destruct (String.eqb (Value m) ""); [intros [= <-]; auto | discriminate].
Qed.

(** The three ways a call of [AddPerfData] ends. *)
Lemma AddPerfData_unfold (es : ExitState) (skipValidate : bool)
    (pd : list PerformanceData) :
  (pd = [] /\
   AddPerfData es skipValidate pd = (es, Some ErrNoPerformanceDataProvided))
  \/ (pd <> [] /\ skipValidate = false /\
      exists e, validateEach pd = Some e
                /\ AddPerfData es skipValidate pd = (es, Some e))
  \/ (pd <> [] /\ (skipValidate = true \/ validateEach pd = None) /\
      AddPerfData es skipValidate pd
      = (set_perfData es (perfData es ++ pd)%list, None)).
Proof.
  destruct pd as [|a pd]; [left; split; reflexivity|].
  right. unfold AddPerfData. cbn [List.length Nat.eqb].
  destruct skipValidate; cbn [negb].
  - right. split; [discriminate|]. split; [now left | reflexivity].
  - destruct (validateEach (a :: pd)) as [e|] eqn:Hv.
    + left. split; [discriminate|]. split; [reflexivity|].
      exists e. split; reflexivity.
    + right. split; [discriminate|]. split; [now right | reflexivity].
Qed.

(** X1: what the result of [AddPerfData] tells the caller.  A nil result
    means the batch was non-empty, was appended whole, and, unless
    validation was skipped, holds valid metrics only.  An error means the
    state is what it was, and the error is either the empty-batch error
    (exactly for an empty batch) or the validation error of a metric of
    the batch, validation being on. *)
Theorem AddPerfData_result_cases (es : ExitState) (skipValidate : bool)
    (pd : list PerformanceData) :
  match snd (AddPerfData es skipValidate pd) with
  | None =>
      pd <> []
      /\ perfData (fst (AddPerfData es skipValidate pd))
         = (perfData es ++ pd)%list
      /\ (skipValidate = true \/ Forall (fun m => Validate m = None) pd)
  | Some e =>
      fst (AddPerfData es skipValidate pd) = es
      /\ ((pd = [] /\ e = ErrNoPerformanceDataProvided)
          \/ (pd <> [] /\ skipValidate = false
              /\ exists m, In m pd /\ Validate m = Some e))
  end.
Proof.
  destruct (AddPerfData_unfold es skipValidate pd)
    as [[Hpd ->] | [(Hpd & Hs & e & Hv & ->) | (Hpd & Hs & ->)]]; cbn [fst snd].
  - split; [reflexivity | left; auto].
  - split; [reflexivity|]. right. repeat split; auto.
    now apply validateEach_Some.
  - repeat split; auto.
    destruct Hs as [Hs|Hs]; [now left | right; now apply validateEach_None].
Qed.

(** X2: the only errors [AddPerfData] returns are the package's three
    performance-data sentinels. *)
Theorem AddPerfData_error_sentinels (es : ExitState) (skipValidate : bool)
    (pd : list PerformanceData) (e : errorValue) :
  snd (AddPerfData es skipValidate pd) = Some e ->
  e = ErrNoPerformanceDataProvided
  \/ e = ErrPerformanceDataMissingLabel
  \/ e = ErrPerformanceDataMissingValue.
Proof.
  destruct (AddPerfData_unfold es skipValidate pd)
    as [[Hpd ->] | [(Hpd & Hs & e' & Hv & ->) | (Hpd & Hs & ->)]]; cbn [snd].
  - intros [= <-]. now left.
  - intros [= <-]. right.
    destruct (validateEach_Some pd e' Hv) as (m & _ & Hm).
    now apply (Validate_sentinel m).
  - discriminate.
Qed.

Lemma AddPerfData_error_sentinels_witness :
  ErrPerformanceDataMissingValue = ErrNoPerformanceDataProvided
  \/ ErrPerformanceDataMissingValue = ErrPerformanceDataMissingLabel
  \/ ErrPerformanceDataMissingValue = ErrPerformanceDataMissingValue.
Proof.
  apply (AddPerfData_error_sentinels samples.zeroState false
           [samples.timeMetric; samples.metric "load" ""]).
  reflexivity.
Defined.

Lemma AddPerfData_keeps_valid (es : ExitState) (pd : list PerformanceData) :
  Forall (fun m => Validate m = None) (perfData es) ->
  Forall (fun m => Validate m = None)
    (perfData (fst (AddPerfData es false pd))).
Proof.
  intros H.
  destruct (AddPerfData_unfold es false pd)
    as [[Hpd ->] | [(Hpd & Hs & e & Hv & ->) | (Hpd & Hs & ->)]];
    cbn [fst]; auto.
  cbn [perfData set_perfData]. apply Forall_app. split; [assumption|].
  destruct Hs as [Hs|Hs]; [discriminate | now apply validateEach_None].
Qed.

(** X3: a metric sequence that holds valid metrics only still does after
    any number of calls of [AddPerfData] with validation on, failed calls
    included. *)
Theorem AddPerfData_keeps_validated (es : ExitState)
    (batches : list (list PerformanceData)) :
  Forall (fun m => Validate m = None) (perfData es) ->
  Forall (fun m => Validate m = None)
    (perfData
       (fold_left (fun s pd => fst (AddPerfData s false pd)) batches es)).
Proof.
  revert es. induction batches as [|pd batches IH]; intros es H; simpl.
  - assumption.
  - apply IH. now apply AddPerfData_keeps_valid.
Qed.

Lemma AddPerfData_keeps_validated_witness :
  Forall (fun m => Validate m = None)
    (perfData
       (fold_left (fun s pd => fst (AddPerfData s false pd))
          [samples.exampleBatch; []; [samples.metric "" "1"];
           [samples.metric "load" "0.5"]]
          samples.brandedState)).
Proof.
  apply (AddPerfData_keeps_validated samples.brandedState).
  repeat constructor.
Defined.

(** X4: two calls that both succeed leave the state one call with the
    two batches joined leaves, and that call succeeds too. *)
Theorem AddPerfData_batches_compose (es : ExitState) (skipValidate : bool)
    (a b : list PerformanceData) :
  snd (AddPerfData es skipValidate a) = None ->
  snd (AddPerfData (fst (AddPerfData es skipValidate a)) skipValidate b)
  = None ->
  AddPerfData es skipValidate (a ++ b)%list
  = AddPerfData (fst (AddPerfData es skipValidate a)) skipValidate b.
Proof.
  destruct (AddPerfData_unfold es skipValidate a)
    as [[Ha ->] | [(Ha & Hs & e & Hv & ->) | (Ha & Hs & ->)]];
    cbn [fst snd]; try discriminate.
  intros _.
  destruct (AddPerfData_unfold (set_perfData es (perfData es ++ a)%list)
              skipValidate b)
    as [[Hb ->] | [(Hb & Hs' & e & Hv & ->) | (Hb & Hs' & ->)]];
    cbn [snd]; try discriminate.
  intros _.
  destruct (AddPerfData_unfold es skipValidate (a ++ b)%list)
    as [[Hab _] | [(Hab & Hs'' & e & Hv & _) | (Hab & Hs'' & ->)]].
  - apply app_eq_nil in Hab as [? _]. contradiction.
  - exfalso. subst skipValidate.
    destruct Hs as [?|Hs]; [discriminate|].
    destruct Hs' as [?|Hs']; [discriminate|].
    rewrite (validateEach_app a b Hs) in Hv. congruence.
  - f_equal. destruct es. cbn. now rewrite app_assoc.
Qed.

Lemma AddPerfData_batches_compose_witness :
  AddPerfData samples.brandedState false
    (samples.exampleBatch ++ [samples.metric "load" "0.5"])%list
  = AddPerfData
      (fst (AddPerfData samples.brandedState false samples.exampleBatch))
      false [samples.metric "load" "0.5"].
Proof.
  apply (AddPerfData_batches_compose samples.brandedState false
           samples.exampleBatch [samples.metric "load" "0.5"]);
    reflexivity.
Defined.

(** X5: a batch is all-or-nothing, two calls are not.  When the first
    part of a batch is valid and the second holds an invalid metric, one
    call with the whole batch appends nothing, while a call for each part
    leaves the first part appended. *)
Theorem AddPerfData_split_not_atomic (es : ExitState)
    (a b : list PerformanceData) :
  a <> [] ->
  (forall m, In m a -> Validate m = None) ->
  (exists m, In m b /\ Validate m <> None) ->
  perfData (fst (AddPerfData es false (a ++ b)%list)) = perfData es
  /\ perfData (fst (AddPerfData (fst (AddPerfData es false a)) false b))
     = (perfData es ++ a)%list.
Proof.
  intros Ha Hva Hb.
  pose proof (validateEach_all_valid a Hva) as Hna.
  destruct (validateEach_first b Hb) as (l1 & m & l2 & e & _ & _ & _ & Hv).
  split.
  - destruct (AddPerfData_unfold es false (a ++ b)%list)
      as [[Hpd ->] | [(Hpd & Hs & e' & Hv' & ->) | (Hpd & Hs & ->)]];
      cbn [fst]; try reflexivity.
    rewrite (validateEach_app a b Hna) in Hs.
    destruct Hs as [?|Hs]; [discriminate | congruence].
  - destruct (AddPerfData_unfold es false a)
      as [[Hpd ->] | [(Hpd & Hs & e' & Hv' & ->) | (Hpd & Hs & ->)]];
      cbn [fst]; [contradiction | congruence |].
    destruct (AddPerfData_unfold (set_perfData es (perfData es ++ a)%list)
                false b)
      as [[Hpb ->] | [(Hpb & Hsb & e' & Hv' & ->) | (Hpb & Hsb & ->)]];
      cbn [fst]; try reflexivity.
    destruct Hsb as [?|Hsb]; [discriminate | congruence].
Qed.

Lemma AddPerfData_split_not_atomic_witness :
  perfData
    (fst (AddPerfData samples.zeroState false
            (samples.exampleBatch ++ [samples.metric "load" ""])%list))
  = perfData samples.zeroState
  /\ perfData
       (fst (AddPerfData
               (fst (AddPerfData samples.zeroState false
                       samples.exampleBatch))
               false [samples.metric "load" ""]))
     = (perfData samples.zeroState ++ samples.exampleBatch)%list.
Proof.
  apply (AddPerfData_split_not_atomic samples.zeroState
           samples.exampleBatch [samples.metric "load" ""]).
  - discriminate.
  - intros m Hm. simpl in Hm.
    destruct Hm as [<-|[<-|[<-|[]]]]; reflexivity.
  - exists (samples.metric "load" ""). split; [now left | discriminate].
Defined.

(** ** [AddError]: order, frame, composition *)

(** X6: [AddError] appends the errors it is given, in their order and
    nil ones included, changes no other field, and two calls append what
    one call with both argument lists appends. *)
Theorem AddError_appends_in_order (es : ExitState) (a b : list error) :
  Errors (AddError es a) = (Errors es ++ a)%list
  /\ AddError (AddError es a) b = AddError es (a ++ b)%list
  /\ LastError (AddError es a) = LastError es
  /\ ExitStatusCode (AddError es a) = ExitStatusCode es
  /\ ServiceOutput (AddError es a) = ServiceOutput es
  /\ LongServiceOutput (AddError es a) = LongServiceOutput es
  /\ perfData (AddError es a) = perfData es
  /\ WarningThreshold (AddError es a) = WarningThreshold es
  /\ CriticalThreshold (AddError es a) = CriticalThreshold es
  /\ thresholdsLabel (AddError es a) = thresholdsLabel es
  /\ errorsLabel (AddError es a) = errorsLabel es
  /\ detailedInfoLabel (AddError es a) = detailedInfoLabel es
  /\ hideThresholdsSection (AddError es a) = hideThresholdsSection es
  /\ hideErrorsSection (AddError es a) = hideErrorsSection es
  /\ BrandingCallback (AddError es a) = BrandingCallback es.
Proof.
  split; [reflexivity|]. split; [|repeat split].
  unfold AddError, set_Errors. cbn. now rewrite app_assoc.
Qed.

(** X7: [AddError] and [AddPerfData] do not interfere: in either order
    the two calls leave the same state, and [AddPerfData] returns the
    same result. *)
Theorem AddError_AddPerfData_commute (es : ExitState) (errs : list error)
    (skipValidate : bool) (pd : list PerformanceData) :
  AddPerfData (AddError es errs) skipValidate pd
  = (AddError (fst (AddPerfData es skipValidate pd)) errs,
     snd (AddPerfData es skipValidate pd)).
Proof.
  unfold AddPerfData.
  destruct (List.length pd =? 0)%nat; [reflexivity|].
  destruct (if negb skipValidate then validateEach pd else None);
    reflexivity.
Qed.

(** ** [ReturnCheckResults]: the summary as a format *)

Lemma verb_percent (t : string) : fmt.verb (String "%" t) = ("%", 1%nat).
Proof. reflexivity. Qed.

Lemma Fprintf_escapePercent (s : string) :
  fmt.Fprintf (escapePercent s) = s.
Proof.
  unfold fmt.Fprintf.
  induction s as [|c s IH]; [reflexivity|].
  cbn [escapePercent].
  destruct (Ascii.eqb c "%") eqn:Hc.
  - apply Ascii.eqb_eq in Hc. subst c.
    cbn [fmt.doPrintf]. rewrite Ascii.eqb_refl, verb_percent.
    cbn [fmt.doPrintf]. now rewrite IH.
  - cbn [fmt.doPrintf]. rewrite Hc. now rewrite IH.
Qed.

Section FinalizerMore.

Variable handleErrorsSection : ExitState -> string.
Variable handleThresholdsSection : ExitState -> string.
Variable handleLongServiceOutput : ExitState -> string.
Variable handlePerformanceData : ExitState -> string.

Local Abbreviation Return :=
  (ReturnCheckResults handleErrorsSection handleThresholdsSection
     handleLongServiceOutput handlePerformanceData).

(** X9: a caller that writes every [%] of its summary twice gets the
    summary written with each [%] once: with [ServiceOutput] set to the
    escaped text, the text written starts with the text itself. *)
Theorem summary_escaped_percent (es : ExitState) (summary : string)
    (stackTrace : string) :
  let es' := set_ServiceOutput es (escapePercent summary) in
  stdout (Return es' None stackTrace) =
  [summary
   ++ handleErrorsSection es'
   ++ handleThresholdsSection es'
   ++ handleLongServiceOutput es'
   ++ match BrandingCallback es with
      | Some callback => CheckOutputEOL ++ callback tt ++ CheckOutputEOL
      | None => ""
      end
   ++ handlePerformanceData es'].
Proof.
  intros es'.
  rewrite ReturnCheckResults_stdout. cbv zeta. cbn [overrideOnPanic].
  subst es'. cbn [ServiceOutput BrandingCallback set_ServiceOutput].
  now rewrite Fprintf_escapePercent.
Qed.

(** X10: after a panic, nothing of what is written or returned depends
    on the summary, the long output or the status code the caller had
    set. *)
Theorem panic_outcome_ignores_overwritten_fields (es : ExitState)
    (summary long : string) (code : Z) (err : any) (stackTrace : string) :
  Return
    (set_ServiceOutput
       (set_LongServiceOutput (set_ExitStatusCode es code) long) summary)
    (Some err) stackTrace
  = Return es (Some err) stackTrace.
Proof. reflexivity. Qed.

(** X11: the error recorded for a panic wraps [ErrPanicDetected] and
    nothing else.  The payload is printed into its message, so no other
    sentinel and no error of the client is found in it by [errors.Is],
    not even when the payload is that very error. *)
Theorem panic_error_hides_payload (es : ExitState) (err : any)
    (stackTrace : string) (target : errorValue) :
  target <> ErrPanicDetected ->
  (forall msg inner, target <> wrapError msg inner) ->
  exists e,
    Errors (finalState (Return es (Some err) stackTrace))
    = (Errors es ++ [Some e])%list
    /\ errors_Is e ErrPanicDetected = true
    /\ errors_Is e target = false.
Proof.
  intros Hp Hw.
  exists (wrapError (Error ErrPanicDetected ++ ": " ++ Sprint_s err)
            ErrPanicDetected).
  split; [reflexivity|]. split; [reflexivity|].
  destruct target; try reflexivity.
  - congruence.
  - exfalso. now apply (Hw msg target).
Qed.

(** X12: [ReturnCheckResults] writes to four fields only.  Whether or not
    a panic is recovered, the metrics, the thresholds, the labels, the
    hide flags, the callback and [LastError] are left as they were, and
    the recorded errors are kept, followed by at most one more. *)
Theorem ReturnCheckResults_frame (es : ExitState) (recovered : option any)
    (stackTrace : string) :
  let es' := finalState (Return es recovered stackTrace) in
  LastError es' = LastError es
  /\ perfData es' = perfData es
  /\ WarningThreshold es' = WarningThreshold es
  /\ CriticalThreshold es' = CriticalThreshold es
  /\ thresholdsLabel es' = thresholdsLabel es
  /\ errorsLabel es' = errorsLabel es
  /\ detailedInfoLabel es' = detailedInfoLabel es
  /\ hideThresholdsSection es' = hideThresholdsSection es
  /\ hideErrorsSection es' = hideErrorsSection es
  /\ BrandingCallback es' = BrandingCallback es
  /\ exists added,
       Errors es' = (Errors es ++ added)%list
       /\ (List.length added <= 1)%nat
       /\ (recovered = None -> added = [] /\ es' = es).
Proof.
  destruct recovered as [err|]; cbv zeta; repeat split.
  - eexists. split; [reflexivity|]. split; [apply le_n | discriminate].
  - exists []. split; [now rewrite app_nil_r|].
    split; [apply Nat.le_0_l | split; reflexivity].
Qed.

End FinalizerMore.

Lemma summary_verbatim_without_percent_witness :
  stdout
    (spec.ReturnCheckResultsWith "PERFDATA" samples.brandedState None "")
  = [ServiceOutput samples.brandedState
     ++ spec.handleErrorsSection samples.brandedState
     ++ spec.handleThresholdsSection samples.brandedState
     ++ spec.handleLongServiceOutput samples.brandedState
     ++ match BrandingCallback samples.brandedState with
        | Some callback => CheckOutputEOL ++ callback tt ++ CheckOutputEOL
        | None => ""
        end
     ++ spec.handlePerformanceData "PERFDATA" samples.brandedState].
Proof.
  apply (summary_verbatim_without_percent
           spec.handleErrorsSection spec.handleThresholdsSection
           spec.handleLongServiceOutput
           (spec.handlePerformanceData "PERFDATA")
           samples.brandedState "").
  reflexivity.
Defined.

Lemma panic_error_hides_payload_witness :
  exists e,
    Errors
      (finalState
         (spec.ReturnCheckResultsWith "PERFDATA" samples.zeroState
            (Some (anyError ErrPerformanceDataMissingLabel))
            "goroutine 1 [running]:"))
    = (Errors samples.zeroState ++ [Some e])%list
    /\ errors_Is e ErrPanicDetected = true
    /\ errors_Is e ErrPerformanceDataMissingLabel = false.
Proof.
  apply (panic_error_hides_payload
           spec.handleErrorsSection spec.handleThresholdsSection
           spec.handleLongServiceOutput
           (spec.handlePerformanceData "PERFDATA")
           samples.zeroState (anyError ErrPerformanceDataMissingLabel)
           "goroutine 1 [running]:" ErrPerformanceDataMissingLabel);
    discriminate.
Defined.

(** ** The example plugin *)

Section ExampleProperties.

Variable handleErrorsSection : ExitState -> string.
Variable handleThresholdsSection : ExitState -> string.
Variable handleLongServiceOutput : ExitState -> string.
Variable handlePerformanceData : ExitState -> string.

Local Abbreviation Run :=
  (example.Example_emitPerformanceData handleErrorsSection
     handleThresholdsSection handleLongServiceOutput handlePerformanceData).

(** The three metrics of the example are accepted whatever text stands
    before the unit of the first. *)
Lemma example_batch_accepted (es : ExitState) (v : string) :
  AddPerfData es false
    [ mkPerformanceData "time" (v ++ "ms") "" "" "" "" "";
      mkPerformanceData "datacenters" (example.Sprint_d 2) "" "" "" "" "";
      mkPerformanceData "triggered_alarms" (example.Sprint_d 14)
        "" "" "" "" "" ]
  = (set_perfData es
       (perfData es ++
        [ mkPerformanceData "time" (v ++ "ms") "" "" "" "" "";
          mkPerformanceData "datacenters" "2" "" "" "" "" "";
          mkPerformanceData "triggered_alarms" "14" "" "" "" "" "" ])%list,
     None).
Proof. destruct v; reflexivity. Qed.

(** X13: when its two helpers return, the example plugin never takes its
    error branch, whatever the elapsed time: it exits with status 0, no
    error recorded, its three metrics recorded in order, and the text
    written is rendered from the summary and the report the helpers
    returned. *)
Theorem Example_exits_OK (summary report : string) (elapsed : Z)
    (stackTrace : string) :
  let r := Run (example.returns summary) (example.returns report)
             elapsed stackTrace in
  let es' := finalState r in
  exitCode r = StateOKExitCode
  /\ Errors es' = []
  /\ perfData es' =
     [ mkPerformanceData "time" (example.Sprint_d elapsed ++ "ms")
         "" "" "" "" "";
       mkPerformanceData "datacenters" "2" "" "" "" "" "";
       mkPerformanceData "triggered_alarms" "14" "" "" "" "" "" ]
  /\ ServiceOutput es' = summary
  /\ LongServiceOutput es' = report
  /\ stdout r =
     [fmt.Fprintf summary ++ handleErrorsSection es'
      ++ handleThresholdsSection es' ++ handleLongServiceOutput es'
      ++ handlePerformanceData es'].
Proof.
  unfold example.Example_emitPerformanceData. rewrite example_batch_accepted.
  cbv zeta. cbv beta iota. unfold example.deferred.
  repeat split.
  rewrite ReturnCheckResults_stdout. reflexivity.
Qed.

(** X14: when one of its two helpers panics, the example plugin exits
    with status 2 and the crash summary; the three metrics recorded
    before the panic are kept and the one error recorded is the one of
    the panic. *)
Theorem Example_panic_is_critical (v : any) (summary : string)
    (other : example.outcome) (elapsed : Z) (stackTrace : string) :
  let crashed (r : Termination) :=
    exitCode r = StateCRITICALExitCode
    /\ ServiceOutput (finalState r) =
       "CRITICAL: plugin crash detected. See details via web UI or run plugin manually via CLI."
    /\ Errors (finalState r) =
       [Some (wrapError ("plugin crash/panic detected: " ++ Sprint_s v)
                ErrPanicDetected)]
    /\ List.map Label (perfData (finalState r)) =
       ["time"; "datacenters"; "triggered_alarms"] in
  crashed (Run (example.panics v) other elapsed stackTrace)
  /\ crashed (Run (example.returns summary) (example.panics v)
                elapsed stackTrace).
Proof.
  cbv zeta. unfold example.Example_emitPerformanceData.
  rewrite example_batch_accepted. cbv zeta. cbv beta iota.
  unfold example.deferred. repeat split.
Qed.

End ExampleProperties.
